(** * Booking service of book-it-api: a shallow embedding and its properties

    Source: src/booking/booking.service.ts (class [BookingService]).

    The service is a NestJS provider whose methods read and write three
    Prisma tables (user, room, booking) and answer through a response
    handler.  The embedding keeps that shape:

    - the database is a record of finite maps keyed by the row id;
    - every Prisma call is an action of a small state-and-exception monad
      (a call may throw, and what was written before the throw stays
      written: the service opens no transaction);
    - reading a property of [null] throws a [TypeError], as in JavaScript;
    - each method body is wrapped in its [try]/[catch], which turns every
      exception into the method's [serverError] answer.

    Numbers: [numberOfRooms], [numberAvailable], [price] and [cost] are
    integers, modelled by [Z]; a [Date] is its time value, the number of
    milliseconds since the epoch, also a [Z], and the quotient that
    [Math.round] rounds is taken exactly.  The code computes it in double
    precision; the two agree while the dates are at most [2^53]
    milliseconds apart (the difference is then exact, and the rounded
    quotient, below [2^27], cannot cross a half), and statements that depend
    on the rounding of distant dates carry that bound.

    Frame: the store calls themselves do not fail for reasons outside the
    data (no I/O error, no timeout, no rejected write), and each method runs
    alone from start to end.  In the code a write rejected after an earlier
    write leaves the earlier write in place under the method's server
    error; the statements below that speak of an unchanged store are about
    answers given before any write, or are made within this frame. *)

From Stdlib Require Import ZArith String.
From stdpp Require Import gmap strings list fin_maps.

Open Scope string_scope.
Open Scope Z_scope.

(** ** Rows of the three tables (and of the hotel table, joined on reads) *)

(** A row's [id] column is the key under which the table holds it, so the
    records below have no [id] field: a row found with [where: { id }] has
    that id.  Of a user the service reads nothing but the id. *)

Record User := { user_id : string }.

Record Hotel := { hotel_name : string }.

Record Room := {
  room_hotelId : string;
  price : Z;
  numberAvailable : Z
}.

Record Booking := {
  userId : string;
  roomId : string;
  hotelId : string;
  checkInDate : Z;
  checkOutDate : Z;
  numberOfRooms : Z;
  cost : Z;
  createdAt : Z;
  updatedAt : Z
}.

(** The fields the service reads from [CreateBookingDto] and from
    [UpdateBookingDto]; both are spread into the written row. *)
Record BookingDto := {
  dto_roomId : string;
  dto_checkInDate : Z;
  dto_checkOutDate : Z;
  dto_numberOfRooms : Z
}.

Definition CreateBookingDto := BookingDto.
Definition UpdateBookingDto := BookingDto.

(** ** The database *)

Record Store := {
  users : gset string;
  hotels : gmap string Hotel;
  rooms : gmap string Room;
  bookings : gmap string Booking;
  clock : Z
}.

Definition set_rooms (f : gmap string Room → gmap string Room) (s : Store) : Store :=
  {| users := users s; hotels := hotels s; rooms := f (rooms s);
     bookings := bookings s; clock := clock s |}.

Definition set_numberAvailable (r : Room) (n : Z) : Room :=
  {| room_hotelId := room_hotelId r; price := price r; numberAvailable := n |}.

Definition set_bookings (f : gmap string Booking → gmap string Booking) (s : Store) : Store :=
  {| users := users s; hotels := hotels s; rooms := rooms s;
     bookings := f (bookings s); clock := clock s |}.

(** ** JavaScript objects handed to the response handler *)

Inductive Value :=
  | VString (s : string)
  | VNumber (n : Z)
  | VDate (t : Z)
  | VHotel (h : Hotel)
  | VRoom (r : Room).

Inductive Payload :=
  | PObject (o : gmap string Value)
  | PList (l : list (gmap string Value)).

Inductive Response :=
  | requestSuccessful (payload : option Payload) (message : string)
  | clientError (message : string)
  | serverError (message : string).

(** ** State and exceptions *)

Inductive JsError :=
  | TypeError (what : string)
  | PrismaError (code : string).

Inductive Outcome (A : Type) :=
  | Return (a : A)
  | Throw (e : JsError).
Arguments Return {A} a.
Arguments Throw {A} e.

Definition M (A : Type) : Type := Store → Outcome A * Store.

Definition ret {A} (a : A) : M A := fun s => (Return a, s).

Definition throw {A} (e : JsError) : M A := fun s => (Throw e, s).

Definition bind {A B} (m : M A) (k : A → M B) : M B :=
  fun s => match m s with
           | (Return a, s') => k a s'
           | (Throw e, s') => (Throw e, s')
           end.

Notation "'do' x <- m ; k" := (bind m (fun x => k))
  (at level 10, x name, m at level 100, k at level 200).
Notation "'exec' m ; k" := (bind m (fun _ => k))
  (at level 10, m at level 100, k at level 200).

(** [try { body } catch (err) { return handler }] at the top of a method. *)
Definition try_catch (body : M Response) (handler : JsError → Response)
    (s : Store) : Response * Store :=
  match body s with
  | (Return r, s') => (r, s')
  | (Throw e, s') => (handler e, s')
  end.

(** [o.field] where [o] may be [null]. *)
Definition prop {T A} (o : option T) (field : T → A) (name : string) : M A :=
  match o with
  | Some t => ret (field t)
  | None => throw (TypeError ("Cannot read properties of null (reading '" +:+ name +:+ "')"))
  end.

(** [if (o)] on a row or [null]. *)
Definition truthy {T} (o : option T) : bool :=
  match o with Some _ => true | None => false end.

(** ** The Prisma calls the service makes *)

Definition booking_fields (id : string) (b : Booking) : gmap string Value :=
  list_to_map
    [("id", VString id); ("userId", VString (userId b));
     ("roomId", VString (roomId b)); ("hotelId", VString (hotelId b));
     ("checkInDate", VDate (checkInDate b));
     ("checkOutDate", VDate (checkOutDate b));
     ("numberOfRooms", VNumber (numberOfRooms b)); ("cost", VNumber (cost b));
     ("createdAt", VDate (createdAt b)); ("updatedAt", VDate (updatedAt b))].

(** The rows of the booking table selected by [where: { userId }]. *)
Definition bookings_of (s : Store) (uid : string) : list (string * Booking) :=
  filter (fun kb => userId kb.2 = uid) (map_to_list (bookings s)).

Module prisma.

Definition user_findUnique (id : string) : M (option User) :=
  fun s => (Return (if decide (id ∈ users s) then Some {| user_id := id |} else None), s).

Definition room_findUnique (id : string) : M (option Room) :=
  fun s => (Return (rooms s !! id), s).

Definition booking_findUnique (id : string) : M (option Booking) :=
  fun s => (Return (bookings s !! id), s).

(** [booking.create({ data })]: the store picks the id (one that no row
    has) and stamps both timestamps. *)
Definition booking_create (dto : BookingDto) (cost : Z)
    (userId roomId hotelId : string) : M Booking :=
  fun s =>
    let b := {| userId := userId; roomId := roomId; hotelId := hotelId;
                checkInDate := dto_checkInDate dto;
                checkOutDate := dto_checkOutDate dto;
                numberOfRooms := dto_numberOfRooms dto;
                cost := cost;
                createdAt := clock s; updatedAt := clock s |} in
    (Return b, set_bookings (insert (fresh (dom (bookings s))) b) s).

(** [room.update({ where: { id }, data: { numberAvailable } })]; a missing
    row is Prisma's P2025, the one rejection within the frame. *)
Definition room_update (id : string) (newAvailable : Z) : M Room :=
  fun s =>
    match rooms s !! id with
    | Some r =>
        let r' := set_numberAvailable r newAvailable in
        (Return r', set_rooms (insert id r') s)
    | None => (Throw (PrismaError "P2025"), s)
    end.

(** [booking.update({ where: { id }, data: { ...dto, cost } })]: the
    columns of the dto and the cost are overwritten, [updatedAt] is
    stamped, the other columns stay. *)
Definition booking_update (id : string) (dto : BookingDto) (cost : Z) : M Booking :=
  fun s =>
    match bookings s !! id with
    | Some b =>
        let b' := {| userId := userId b; roomId := dto_roomId dto;
                     hotelId := hotelId b;
                     checkInDate := dto_checkInDate dto;
                     checkOutDate := dto_checkOutDate dto;
                     numberOfRooms := dto_numberOfRooms dto;
                     cost := cost;
                     createdAt := createdAt b; updatedAt := clock s |} in
        (Return b', set_bookings (insert id b') s)
    | None => (Throw (PrismaError "P2025"), s)
    end.

Definition booking_delete (id : string) : M Booking :=
  fun s =>
    match bookings s !! id with
    | Some b => (Return b, set_bookings (delete id) s)
    | None => (Throw (PrismaError "P2025"), s)
    end.

(** [booking.findMany({ where: { userId } })]. *)
Definition booking_findMany (uid : string) : M (list (string * Booking)) :=
  fun s => (Return (bookings_of s uid), s).

(** One row of [findMany] with [include: { hotel: true, room: true }]:
    the row's columns and the two rows it references.  Both relations
    are required ones; a reference that resolves to no row makes the
    query throw. *)
Definition include_hotel_room (s : Store) (kb : string * Booking)
    : option (gmap string Value) :=
  match hotels s !! hotelId kb.2, rooms s !! roomId kb.2 with
  | Some h, Some r =>
      Some (<["hotel" := VHotel h]> (<["room" := VRoom r]> (booking_fields kb.1 kb.2)))
  | _, _ => None
  end.

Definition booking_findMany_include (uid : string) : M (list (gmap string Value)) :=
  fun s =>
    match mapM (include_hotel_room s) (bookings_of s uid) with
    | Some l => (Return l, s)
    | None => (Throw (PrismaError "Inconsistent query result"), s)
    end.

(** [booking.deleteMany({ where: { userId } })]. *)
Definition booking_deleteMany (uid : string) : M unit :=
  fun s => (Return (), set_bookings (filter (fun kb => userId kb.2 ≠ uid)) s).

End prisma.

(** ** The service *)

(** [Math.round(p / q)] for [q > 0] and [p >= 0]: the nearest integer, a
    tie going up; the quotient is exact (see the note on numbers above). *)
Definition Math_round_div (p q : Z) : Z := (2 * p + q) / (2 * q).

Definition getNumberOfNights (checkInDate checkOutDate : Z) : Z :=
  let oneDay := 24 * 60 * 60 * 1000 in
  let startDate := checkInDate in
  let endDate := checkOutDate in
  let diffDays := Math_round_div (Z.abs (startDate - endDate)) oneDay in
  diffDays.

Definition createBooking (userId : string) (dto : CreateBookingDto)
    : Store → Response * Store :=
  try_catch
    (do user <- prisma.user_findUnique userId;
     do room <- prisma.room_findUnique (dto_roomId dto);
     if negb (truthy user) && truthy room then
       ret (clientError "User or room does not exist.")
     else
       do available <- prop room numberAvailable "numberAvailable";
       if dto_numberOfRooms dto <? available then
         let numberOfNights :=
           getNumberOfNights (dto_checkInDate dto) (dto_checkOutDate dto) in
         do roomPrice <- prop room price "price";
         let cost := numberOfNights * dto_numberOfRooms dto * roomPrice in
         do uid <- prop user user_id "id";
         do hid <- prop room room_hotelId "hotelId";
         exec prisma.booking_create dto cost uid (dto_roomId dto) hid;
         exec prisma.room_update (dto_roomId dto)
                (available - dto_numberOfRooms dto);
         ret (requestSuccessful None "Booking created successfully")
       else
         ret (clientError
                "The number of available rooms is less than your desired booking"))
    (fun _ => serverError "Error creating booking").

(** The [userId] argument is not read. *)
Definition updateBookingById (bookingId userId : string) (dto : UpdateBookingDto)
    : Store → Response * Store :=
  try_catch
    (do booking <- prisma.booking_findUnique bookingId;
     do room <- prisma.room_findUnique (dto_roomId dto);
     if negb (truthy booking) then
       ret (clientError "Booking does not exist")
     else
       let newNumberOfNights :=
         getNumberOfNights (dto_checkInDate dto) (dto_checkOutDate dto) in
       do roomPrice <- prop room price "price";
       let newCost := newNumberOfNights * dto_numberOfRooms dto * roomPrice in
       do available <- prop room numberAvailable "numberAvailable";
       do oldNumberOfRooms <- prop booking numberOfRooms "numberOfRooms";
       exec prisma.room_update (dto_roomId dto)
              (available + oldNumberOfRooms - dto_numberOfRooms dto);
       exec prisma.booking_update bookingId dto newCost;
       ret (requestSuccessful None "Booking updated successfully"))
    (fun _ => serverError "Error updating booking details").

Definition getBookingById (id : string) : Store → Response * Store :=
  try_catch
    (do booking <- prisma.booking_findUnique id;
     match booking with
     | Some b =>
         let o := delete "userId" (delete "updatedAt" (delete "createdAt"
                    (booking_fields id b))) in
         ret (requestSuccessful (Some (PObject o)) "Booking retrieved successfully")
     | None => ret (clientError "Booking does not exist")
     end)
    (fun _ => serverError "Error retrieving booking").

(** The body of the [forEach] in [getAllBookingsByUser]. *)
Definition strip_linkage (booking : gmap string Value) : gmap string Value :=
  delete "userId" (delete "updatedAt" (delete "createdAt"
    (delete "roomId" (delete "hotelId" booking)))).

Definition getAllBookingsByUser (userId : string) : Store → Response * Store :=
  try_catch
    (do user <- prisma.user_findUnique userId;
     if negb (truthy user) then
       ret (clientError "User does not exist")
     else
       do bookings <- prisma.booking_findMany_include userId;
       if (0 <? length bookings)%nat then
         ret (requestSuccessful (Some (PList (strip_linkage <$> bookings)))
                "Bookings retrieved successfully")
       else
         ret (clientError "You don't have any bookings"))
    (fun _ => serverError "There was an error getting your bookings").

Definition deleteBookingById (id : string) : Store → Response * Store :=
  try_catch
    (do booking <- prisma.booking_findUnique id;
     if negb (truthy booking) then
       ret (clientError "Booking does not exist")
     else
       exec prisma.booking_delete id;
       ret (requestSuccessful None "Booking deleted successfully"))
    (fun _ => serverError "There was an error deleting this booking").

Definition deleteAllBookings (userId : string) : Store → Response * Store :=
  try_catch
    (do user <- prisma.user_findUnique userId;
     if negb (truthy user) then
       ret (clientError "User does not exist")
     else
       do bookings <- prisma.booking_findMany userId;
       if (length bookings <? 1)%nat then
         ret (clientError "You don't have any bookings")
       else
         exec prisma.booking_deleteMany userId;
         ret (requestSuccessful None "Bookings deleted successfully"))
    (fun _ => serverError "Error deleting all bookings").

(** ** Dates of the scenarios

    [isoDate y m d] is the time value of the date-only string [y-m-d]
    (UTC midnight), by ECMAScript's day arithmetic. *)

Definition DayFromYear (y : Z) : Z :=
  365 * (y - 1970) + (y - 1969) / 4 - (y - 1901) / 100 + (y - 1601) / 400.

Definition InLeapYear (y : Z) : bool :=
  (y mod 4 =? 0) && (negb (y mod 100 =? 0) || (y mod 400 =? 0)).

Definition DayWithinYear (y m : Z) : Z :=
  nth (Z.to_nat (m - 1)) [0; 31; 59; 90; 120; 151; 181; 212; 243; 273; 304; 334] 0
  + (if InLeapYear y && (2 <? m) then 1 else 0).

Definition isoDate (y m d : Z) : Z :=
  (DayFromYear y + DayWithinYear y m + (d - 1)) * 86400000.

(** ** The availability ledger *)

(** What booking [b] reserves of room [rid]. *)
Definition reserves (rid : string) (b : Booking) : Z :=
  if decide (roomId b = rid) then numberOfRooms b else 0.

(** Rooms reserved in room [rid] by the bookings on record. *)
Definition booked (s : Store) (rid : string) : Z :=
  map_fold (fun _ b acc => reserves rid b + acc) 0 (bookings s).

(** [numberAvailable] plus the rooms reserved, for a room on record. *)
Definition ledger (s : Store) (rid : string) : option Z :=
  (fun r => numberAvailable r + booked s rid) <$> rooms s !! rid.

Definition ledger_consistent (capacity : string → Z) (s : Store) : Prop :=
  ∀ rid r, rooms s !! rid = Some r → numberAvailable r + booked s rid = capacity rid.

Definition available_nonneg (s : Store) : Prop :=
  ∀ rid r, rooms s !! rid = Some r → 0 ≤ numberAvailable r.

(** The row [createBooking] writes. *)
Definition created_booking (uid : string) (dto : BookingDto) (r : Room) (now : Z) : Booking :=
  {| userId := uid; roomId := dto_roomId dto; hotelId := room_hotelId r;
     checkInDate := dto_checkInDate dto; checkOutDate := dto_checkOutDate dto;
     numberOfRooms := dto_numberOfRooms dto;
     cost := getNumberOfNights (dto_checkInDate dto) (dto_checkOutDate dto)
             * dto_numberOfRooms dto * price r;
     createdAt := now; updatedAt := now |}.

(** The row [updateBookingById] leaves in place of [b]. *)
Definition updated_booking (b : Booking) (dto : BookingDto) (r : Room) (now : Z) : Booking :=
  {| userId := userId b; roomId := dto_roomId dto; hotelId := hotelId b;
     checkInDate := dto_checkInDate dto; checkOutDate := dto_checkOutDate dto;
     numberOfRooms := dto_numberOfRooms dto;
     cost := getNumberOfNights (dto_checkInDate dto) (dto_checkOutDate dto)
             * dto_numberOfRooms dto * price r;
     createdAt := createdAt b; updatedAt := now |}.

(** Every booking references a hotel and a room that are on record (the
    foreign keys of the booking table). *)
Definition references_resolve (s : Store) : Prop :=
  ∀ k b, bookings s !! k = Some b →
    is_Some (hotels s !! hotelId b) ∧ is_Some (rooms s !! roomId b).

(** What [getAllBookingsByUser] hands out for the row [kb]: the linkage
    fields are gone, the joined hotel and room and the other columns are
    there. *)
Definition public_view (s : Store) (kb : string * Booking) (o : gmap string Value) : Prop :=
  o !! "hotelId" = None ∧ o !! "roomId" = None
  ∧ o !! "createdAt" = None ∧ o !! "updatedAt" = None ∧ o !! "userId" = None
  ∧ o !! "hotel" = VHotel <$> hotels s !! hotelId kb.2
  ∧ o !! "room" = VRoom <$> rooms s !! roomId kb.2
  ∧ o !! "id" = Some (VString kb.1)
  ∧ o !! "checkInDate" = Some (VDate (checkInDate kb.2))
  ∧ o !! "checkOutDate" = Some (VDate (checkOutDate kb.2))
  ∧ o !! "numberOfRooms" = Some (VNumber (numberOfRooms kb.2))
  ∧ o !! "cost" = Some (VNumber (cost kb.2)).

(** ** Stores of the scenarios *)

Definition a_room (available : Z) : Room :=
  {| room_hotelId := "h1"; price := 100; numberAvailable := available |}.

Definition a_booking (rooms : Z) : Booking :=
  {| userId := "u1"; roomId := "r1"; hotelId := "h1";
     checkInDate := isoDate 2024 1 1; checkOutDate := isoDate 2024 1 4;
     numberOfRooms := rooms; cost := 3 * rooms * 100;
     createdAt := 0; updatedAt := 0 |}.

(** One user [u1], one hotel [h1] and its room [r1], at 100 a night. *)
Definition a_store (available : Z) (bs : gmap string Booking) : Store :=
  {| users := {["u1"]}; hotels := {["h1" := {| hotel_name := "Hotel" |}]};
     rooms := {["r1" := a_room available]}; bookings := bs; clock := 0 |}.

Definition a_dto (room : string) (checkIn checkOut rooms : Z) : BookingDto :=
  {| dto_roomId := room; dto_checkInDate := checkIn; dto_checkOutDate := checkOut;
     dto_numberOfRooms := rooms |}.

(** ** Calls made one after another

    A client's call to one of the six methods, and the store after a list
    of calls made in order (each answer is dropped). *)

Inductive Op :=
  | Create (userId : string) (dto : CreateBookingDto)
  | Update (bookingId userId : string) (dto : UpdateBookingDto)
  | GetOne (id : string)
  | GetAll (userId : string)
  | Delete (id : string)
  | DeleteAll (userId : string).

Definition perform (op : Op) : Store → Response * Store :=
  match op with
  | Create uid dto => createBooking uid dto
  | Update bid uid dto => updateBookingById bid uid dto
  | GetOne id => getBookingById id
  | GetAll uid => getAllBookingsByUser uid
  | Delete id => deleteBookingById id
  | DeleteAll uid => deleteAllBookings uid
  end.

Definition perform_all (ops : list Op) (s : Store) : Store :=
  foldl (fun s op => (perform op s).2) s ops.

Definition is_update (op : Op) : bool :=
  match op with Update _ _ _ => true | _ => false end.

Definition is_delete (op : Op) : bool :=
  match op with Delete _ | DeleteAll _ => true | _ => false end.

(** What no method writes of a room, and of a booking once created. *)
Definition room_fixed (r : Room) : string * Z := (room_hotelId r, price r).

Definition booking_fixed (b : Booking) : string * string * Z :=
  (userId b, hotelId b, createdAt b).

(** A second user and a booking of theirs on the same room. *)
Definition their_booking : Booking :=
  {| userId := "u2"; roomId := "r1"; hotelId := "h1";
     checkInDate := isoDate 2024 2 1; checkOutDate := isoDate 2024 2 3;
     numberOfRooms := 1; cost := 200; createdAt := 0; updatedAt := 0 |}.

Definition two_users_store (bs : gmap string Booking) : Store :=
  {| users := {["u1"; "u2"]}; hotels := {["h1" := {| hotel_name := "Hotel" |}]};
     rooms := {["r1" := a_room 2]}; bookings := bs; clock := 0 |}.

(** The time values a [Date] can hold (ECMAScript's time range). *)
Definition valid_time (t : Z) : Prop := Z.abs t ≤ 8640000000000000.

(** The store at another reading of its clock. *)
Definition set_clock (t : Z) (s : Store) : Store :=
  {| users := users s; hotels := hotels s; rooms := rooms s;
     bookings := bookings s; clock := t |}.

(** Every column of a booking but [updatedAt]. *)
Definition booking_data (b : Booking)
    : string * string * string * Z * Z * Z * Z * Z :=
  (userId b, roomId b, hotelId b, checkInDate b, checkOutDate b,
   numberOfRooms b, cost b, createdAt b).

(** * Properties *)

Ltac run :=
  unfold createBooking, updateBookingById, deleteBookingById, deleteAllBookings,
    getAllBookingsByUser, getBookingById, try_catch, bind, ret, throw, prop,
    prisma.user_findUnique, prisma.room_findUnique, prisma.booking_findUnique,
    prisma.booking_create, prisma.room_update, prisma.booking_update,
    prisma.booking_delete, prisma.booking_findMany, prisma.booking_deleteMany,
    prisma.booking_findMany_include.

(** ** What each method computes, path by path *)

Section paths.
Context (s : Store).

Lemma createBooking_no_room uid dto :
  rooms s !! dto_roomId dto = None →
  createBooking uid dto s = (serverError "Error creating booking", s).
Proof.
  intros Hr. run. rewrite Hr. by destruct (decide (uid ∈ users s)).
Qed.

Lemma createBooking_no_user uid dto r :
  uid ∉ users s → rooms s !! dto_roomId dto = Some r →
  createBooking uid dto s = (clientError "User or room does not exist.", s).
Proof.
  intros Hu Hr. run. by rewrite Hr, decide_False.
Qed.

Lemma createBooking_rejected uid dto r :
  uid ∈ users s → rooms s !! dto_roomId dto = Some r →
  numberAvailable r ≤ dto_numberOfRooms dto →
  createBooking uid dto s =
    (clientError "The number of available rooms is less than your desired booking", s).
Proof.
  intros Hu Hr Hle. run. rewrite Hr, decide_True by done. simpl.
  by destruct (Z.ltb_spec (dto_numberOfRooms dto) (numberAvailable r)); [lia|].
Qed.

Lemma createBooking_admitted uid dto r :
  uid ∈ users s → rooms s !! dto_roomId dto = Some r →
  dto_numberOfRooms dto < numberAvailable r →
  createBooking uid dto s =
    (requestSuccessful None "Booking created successfully",
     set_rooms (insert (dto_roomId dto)
                  (set_numberAvailable r (numberAvailable r - dto_numberOfRooms dto)))
       (set_bookings (insert (fresh (dom (bookings s)))
                        (created_booking uid dto r (clock s))) s)).
Proof.
  intros Hu Hr Hlt. run. rewrite Hr, decide_True by done. simpl.
  destruct (Z.ltb_spec (dto_numberOfRooms dto) (numberAvailable r)); [|lia].
  simpl. by rewrite Hr.
Qed.

Lemma updateBookingById_no_booking bid uid dto :
  bookings s !! bid = None →
  updateBookingById bid uid dto s = (clientError "Booking does not exist", s).
Proof. intros Hb. run. by rewrite Hb. Qed.

Lemma updateBookingById_no_room bid uid dto b :
  bookings s !! bid = Some b → rooms s !! dto_roomId dto = None →
  updateBookingById bid uid dto s = (serverError "Error updating booking details", s).
Proof. intros Hb Hr. run. by rewrite Hb, Hr. Qed.

Lemma updateBookingById_done bid uid dto b r :
  bookings s !! bid = Some b → rooms s !! dto_roomId dto = Some r →
  updateBookingById bid uid dto s =
    (requestSuccessful None "Booking updated successfully",
     set_bookings (insert bid (updated_booking b dto r (clock s)))
       (set_rooms (insert (dto_roomId dto)
                     (set_numberAvailable r
                        (numberAvailable r + numberOfRooms b - dto_numberOfRooms dto)))
          s)).
Proof. intros Hb Hr. run. rewrite Hb, Hr. simpl. rewrite Hr. simpl. by rewrite Hb. Qed.

Lemma deleteBookingById_no_booking id :
  bookings s !! id = None →
  deleteBookingById id s = (clientError "Booking does not exist", s).
Proof. intros Hb. run. by rewrite Hb. Qed.

Lemma deleteBookingById_done id b :
  bookings s !! id = Some b →
  deleteBookingById id s =
    (requestSuccessful None "Booking deleted successfully", set_bookings (delete id) s).
Proof. intros Hb. run. rewrite Hb. simpl. by rewrite Hb. Qed.

Lemma deleteAllBookings_no_user uid :
  uid ∉ users s → deleteAllBookings uid s = (clientError "User does not exist", s).
Proof. intros Hu. run. by rewrite decide_False. Qed.

Lemma deleteAllBookings_none uid :
  uid ∈ users s → bookings_of s uid = [] →
  deleteAllBookings uid s = (clientError "You don't have any bookings", s).
Proof. intros Hu He. run. rewrite decide_True by done. simpl. by rewrite He. Qed.

Lemma deleteAllBookings_done uid :
  uid ∈ users s → bookings_of s uid ≠ [] →
  deleteAllBookings uid s =
    (requestSuccessful None "Bookings deleted successfully",
     set_bookings (filter (fun kb => userId kb.2 ≠ uid)) s).
Proof.
  intros Hu He. run. rewrite decide_True by done. simpl.
  by destruct (bookings_of s uid).
Qed.

End paths.

(** ** The cost calculator *)

Lemma getNumberOfNights_eq a b :
  getNumberOfNights a b = (2 * Z.abs (a - b) + 86400000) / 172800000.
Proof. reflexivity. Qed.


Lemma getNumberOfNights_sym a b : getNumberOfNights a b = getNumberOfNights b a.
Proof. rewrite !getNumberOfNights_eq. do 2 f_equal. lia. Qed.

Lemma getNumberOfNights_same a : getNumberOfNights a a = 0.
Proof. rewrite getNumberOfNights_eq, Z.sub_diag. reflexivity. Qed.

Lemma getNumberOfNights_whole_days a k :
  getNumberOfNights a (a + 86400000 * k) = Z.abs k.
Proof.
  rewrite getNumberOfNights_eq.
  replace (2 * Z.abs (a - (a + 86400000 * k)) + 86400000)
    with (Z.abs k * 172800000 + 86400000) by lia.
  rewrite Z.div_add_l by lia.
  change (86400000 `div` 172800000) with 0. lia.
Qed.

Lemma fresh_booking_id s : bookings s !! fresh (dom (bookings s)) = None.
Proof. apply not_elem_of_dom, is_fresh. Qed.

(** ** createBooking: the missing-entity guard *)

(** C10. In [createBooking] the answer 'User or room does not exist.' is given
    exactly when the user is absent and the room is present (the guard
    [!user && room]); whenever the room is absent, with or without the user,
    the call ends in the catch-all server error 'Error creating booking'; and
    whenever the user or the room is absent the store is left as it was: no
    booking is created and no room is modified. *)
Theorem createBooking_guard uid dto s :
  ((createBooking uid dto s).1 = clientError "User or room does not exist."
     ↔ (uid ∉ users s) ∧ is_Some (rooms s !! dto_roomId dto))
  ∧ (rooms s !! dto_roomId dto = None →
       (createBooking uid dto s).1 = serverError "Error creating booking")
  ∧ (uid ∉ users s ∨ rooms s !! dto_roomId dto = None →
       (createBooking uid dto s).2 = s).
Proof.
  destruct (rooms s !! dto_roomId dto) as [r|] eqn:Hr.
  - destruct (decide (uid ∈ users s)) as [Hu|Hu].
    + destruct (Z.lt_ge_cases (dto_numberOfRooms dto) (numberAvailable r)).
      * rewrite (createBooking_admitted s uid dto r) by done.
        split_and!; [split; [done|tauto]|done|]. by intros [?|?].
      * rewrite (createBooking_rejected s uid dto r) by done.
        split_and!; [split; [done|tauto]|done|]. by intros [?|?].
    + rewrite (createBooking_no_user s uid dto r) by done.
      split_and!; [split; eauto|done|done].
  - rewrite createBooking_no_room by done.
    split_and!; [split; [done|]|done|done]. by intros [_ [? ?]].
Qed.

Lemma createBooking_guard_witness :
  (createBooking "u2" (a_dto "r1" 0 0 1) (a_store 5 ∅)).1
    = clientError "User or room does not exist."
  ∧ (createBooking "u1" (a_dto "r9" 0 0 1) (a_store 5 ∅)).1
    = serverError "Error creating booking"
  ∧ (createBooking "u2" (a_dto "r9" 0 0 1) (a_store 5 ∅)).2 = a_store 5 ∅.
Proof.
  split_and!.
  - apply (createBooking_guard "u2" (a_dto "r1" 0 0 1) (a_store 5 ∅)).
    split; [by vm_compute | by eexists].
  - by apply (createBooking_guard "u1" (a_dto "r9" 0 0 1) (a_store 5 ∅)).
  - apply (createBooking_guard "u2" (a_dto "r9" 0 0 1) (a_store 5 ∅)). by right.
Defined.

(** C3, at a call where the claim fails. The user [u1] exists and the room
    [r9] does not: the call ends in the server error 'Error creating
    booking', not in the client error 'User or room does not exist.'; so it
    does when neither exists. The store is unchanged both times. *)
Theorem createBooking_room_missing_server_error :
  createBooking "u1" (a_dto "r9" (isoDate 2024 1 1) (isoDate 2024 1 4) 1) (a_store 5 ∅)
    = (serverError "Error creating booking", a_store 5 ∅)
  ∧ createBooking "u2" (a_dto "r9" (isoDate 2024 1 1) (isoDate 2024 1 4) 1) (a_store 5 ∅)
    = (serverError "Error creating booking", a_store 5 ∅).
Proof. split; reflexivity. Qed.

(** ** createBooking: admission, cost and effect *)

(** C4. For an existing user and an existing room, [createBooking] answers
    'The number of available rooms is less than your desired booking' exactly
    when [numberOfRooms >= room.numberAvailable], and then the store is
    unchanged; when [numberOfRooms < room.numberAvailable] the request is
    accepted and the room's [numberAvailable] goes down by [numberOfRooms]. *)
Theorem createBooking_admission uid dto s r :
  uid ∈ users s → rooms s !! dto_roomId dto = Some r →
  ((createBooking uid dto s).1
     = clientError "The number of available rooms is less than your desired booking"
   ↔ numberAvailable r ≤ dto_numberOfRooms dto)
  ∧ (numberAvailable r ≤ dto_numberOfRooms dto → (createBooking uid dto s).2 = s)
  ∧ (dto_numberOfRooms dto < numberAvailable r →
       (createBooking uid dto s).1 = requestSuccessful None "Booking created successfully"
       ∧ numberAvailable <$> rooms (createBooking uid dto s).2 !! dto_roomId dto
         = Some (numberAvailable r - dto_numberOfRooms dto)).
Proof.
  intros Hu Hr.
  destruct (Z.lt_ge_cases (dto_numberOfRooms dto) (numberAvailable r)).
  - rewrite (createBooking_admitted s uid dto r) by done. simpl.
    rewrite lookup_insert_eq.
    split_and!; [split; [done|lia]|lia|done].
  - rewrite (createBooking_rejected s uid dto r) by done.
    split_and!; [split; [lia|done]|done|lia].
Qed.

(** Room with 5 available: 5 rooms are refused, 4 are accepted and leave 1. *)
Lemma createBooking_admission_witness :
  (createBooking "u1" (a_dto "r1" (isoDate 2024 1 1) (isoDate 2024 1 4) 5) (a_store 5 ∅)
     = (clientError "The number of available rooms is less than your desired booking",
        a_store 5 ∅))
  ∧ (createBooking "u1" (a_dto "r1" (isoDate 2024 1 1) (isoDate 2024 1 4) 4) (a_store 5 ∅)).1
      = requestSuccessful None "Booking created successfully"
  ∧ numberAvailable <$>
      rooms (createBooking "u1" (a_dto "r1" (isoDate 2024 1 1) (isoDate 2024 1 4) 4)
               (a_store 5 ∅)).2 !! "r1" = Some 1.
Proof.
  assert (Hu : "u1" ∈ users (a_store 5 ∅)) by (by vm_compute).
  assert (Hr : ∀ n, rooms (a_store 5 ∅) !! dto_roomId (a_dto "r1" (isoDate 2024 1 1)
                      (isoDate 2024 1 4) n) = Some (a_room 5)) by reflexivity.
  split.
  - destruct (createBooking_admission "u1" _ _ _ Hu (Hr 5)) as ([_ H1] & H2 & _).
    apply injective_projections; [apply H1 | apply H2]; simpl; lia.
  - destruct (createBooking_admission "u1" _ _ _ Hu (Hr 4)) as (_ & _ & H3).
    apply H3. simpl. lia.
Defined.



(** ** createBooking: the order of the two dates *)

(** The answer of [createBooking] does not depend on the dates. *)
Lemma createBooking_answer_ignores_dates uid room n ci co ci' co' s :
  (createBooking uid (a_dto room ci co n) s).1
    = (createBooking uid (a_dto room ci' co' n) s).1.
Proof.
  destruct (rooms s !! room) as [r|] eqn:Hr;
    [|by rewrite !createBooking_no_room].
  destruct (decide (uid ∈ users s)) as [Hu|Hu];
    [|by rewrite !(createBooking_no_user s uid _ r)].
  destruct (Z.lt_ge_cases n (numberAvailable r)).
  - by rewrite !(createBooking_admitted s uid _ r).
  - by rewrite !(createBooking_rejected s uid _ r).
Qed.

(** C7, refuted. A booking whose check-out (2024-01-01) is before its check-in
    (2024-01-04) is accepted and charged for 3 nights, and one whose two
    dates are the same is accepted at cost 0. *)
Lemma createBooking_accepts_reversed_dates :
  let late := isoDate 2024 1 4 in
  let early := isoDate 2024 1 1 in
  early < late
  ∧ (createBooking "u1" (a_dto "r1" late early 2) (a_store 5 ∅)).1
      = requestSuccessful None "Booking created successfully"
  ∧ cost <$> bookings (createBooking "u1" (a_dto "r1" late early 2) (a_store 5 ∅)).2 !! "0"
      = Some 600
  ∧ (createBooking "u1" (a_dto "r1" late late 2) (a_store 5 ∅)).1
      = requestSuccessful None "Booking created successfully"
  ∧ cost <$> bookings (createBooking "u1" (a_dto "r1" late late 2) (a_store 5 ∅)).2 !! "0"
      = Some 0.
Proof. split_and!; reflexivity. Qed.

(** C7, amended. For an existing user and room and a request that passes the
    admission check, a [createBooking] call whose [checkOutDate] is not after
    its [checkInDate] succeeds as any other: the booking is created and its
    cost is computed from the absolute difference of the dates, that is
    [nights(checkOutDate, checkInDate) * numberOfRooms * room.price], which
    is 0 when the two dates are the same. *)
Theorem createBooking_dates_not_validated uid dto s r :
  uid ∈ users s → rooms s !! dto_roomId dto = Some r →
  dto_numberOfRooms dto < numberAvailable r →
  dto_checkOutDate dto ≤ dto_checkInDate dto →
  (createBooking uid dto s).1 = requestSuccessful None "Booking created successfully"
  ∧ ∃ b, bookings (createBooking uid dto s).2 !! fresh (dom (bookings s)) = Some b
       ∧ cost b = Math_round_div (dto_checkInDate dto - dto_checkOutDate dto) 86400000
                  * dto_numberOfRooms dto * price r
       ∧ (dto_checkOutDate dto = dto_checkInDate dto → cost b = 0).
Proof.
  intros Hu Hr Hlt Hd.
  rewrite (createBooking_admitted s uid dto r) by done. simpl.
  split; [done|]. eexists. rewrite lookup_insert_eq. split; [done|]. simpl.
  split.
  - unfold getNumberOfNights. by rewrite (Z.abs_eq (_ - _)) by lia.
  - intros ->. by rewrite getNumberOfNights_same.
Qed.

Lemma createBooking_dates_not_validated_witness :
  (createBooking "u1" (a_dto "r1" (isoDate 2024 1 4) (isoDate 2024 1 1) 2) (a_store 5 ∅)).1
    = requestSuccessful None "Booking created successfully".
Proof.
  apply (createBooking_dates_not_validated "u1"
           (a_dto "r1" (isoDate 2024 1 4) (isoDate 2024 1 1) 2) (a_store 5 ∅) (a_room 5)).
  - by vm_compute.
  - reflexivity.
  - simpl. lia.
  - by vm_compute.
Defined.

(** ** updateBookingById *)



(** ** Deleting bookings *)

Lemma deleteBookingById_rooms id s : rooms (deleteBookingById id s).2 = rooms s.
Proof.
  destruct (bookings s !! id) as [b|] eqn:Hb.
  - by rewrite (deleteBookingById_done s id b).
  - by rewrite deleteBookingById_no_booking.
Qed.

Lemma deleteAllBookings_rooms uid s : rooms (deleteAllBookings uid s).2 = rooms s.
Proof.
  destruct (decide (uid ∈ users s)); [|by rewrite deleteAllBookings_no_user].
  destruct (decide (bookings_of s uid = [])).
  - by rewrite deleteAllBookings_none.
  - by rewrite deleteAllBookings_done.
Qed.

(** C2, at the scenario where the claim fails. A booking of 3 rooms is
    deleted from a room whose [numberAvailable] is 1: the booking row is
    removed and the call succeeds, but the room keeps [numberAvailable = 1];
    the 3 rooms are not credited back and it does not become 4. *)
Theorem deleteBookingById_omits_credit :
  let s := a_store 1 {["b1" := a_booking 3]} in
  (deleteBookingById "b1" s).1 = requestSuccessful None "Booking deleted successfully"
  ∧ bookings (deleteBookingById "b1" s).2 !! "b1" = None
  ∧ numberAvailable <$> rooms s !! "r1" = Some 1
  ∧ numberAvailable <$> rooms (deleteBookingById "b1" s).2 !! "r1" = Some 1.
Proof. split_and!; reflexivity. Qed.

(** ** The ledger equation *)

Lemma booked_insert_None s k b rid :
  bookings s !! k = None →
  booked (set_bookings (insert k b) s) rid = reserves rid b + booked s rid.
Proof.
  intros Hk. unfold booked. simpl.
  rewrite map_fold_insert_L; [done| intros; lia | done].
Qed.

Lemma booked_delete s k b rid :
  bookings s !! k = Some b →
  booked s rid = reserves rid b + booked (set_bookings (delete k) s) rid.
Proof.
  intros Hk. unfold booked. simpl.
  rewrite (map_fold_delete_L _ _ k b); [done| intros; lia | done].
Qed.

Lemma booked_insert_Some s k b0 b rid :
  bookings s !! k = Some b0 →
  booked (set_bookings (insert k b) s) rid
    = reserves rid b - reserves rid b0 + booked s rid.
Proof.
  intros Hk. rewrite (booked_delete s k b0 rid Hk).
  unfold booked. simpl. rewrite <- (insert_delete_eq (bookings s)).
  rewrite map_fold_insert_L; [lia| intros; lia | apply lookup_delete_eq].
Qed.

Lemma booked_set_rooms f s rid : booked (set_rooms f s) rid = booked s rid.
Proof. reflexivity. Qed.

(** [createBooking] keeps the equation: what it takes from the room's counter
    it puts in a booking of that room. *)
Lemma createBooking_keeps_ledger capacity uid dto s :
  ledger_consistent capacity s →
  ledger_consistent capacity (createBooking uid dto s).2.
Proof.
  intros Hs.
  destruct (rooms s !! dto_roomId dto) as [r|] eqn:Hr;
    [|by rewrite createBooking_no_room].
  destruct (decide (uid ∈ users s)) as [Hu|Hu];
    [|by rewrite (createBooking_no_user s uid dto r)].
  destruct (Z.lt_ge_cases (dto_numberOfRooms dto) (numberAvailable r));
    [|by rewrite (createBooking_rejected s uid dto r)].
  rewrite (createBooking_admitted s uid dto r) by done. simpl.
  intros rid r'. simpl. rewrite booked_set_rooms.
  rewrite booked_insert_None by apply fresh_booking_id.
  unfold reserves. simpl. rewrite lookup_insert.
  repeat case_decide; try congruence; intros Hl.
  - injection Hl as <-. simpl. subst rid. specialize (Hs _ _ Hr). lia.
  - specialize (Hs _ _ Hl). lia.
Qed.

(** So does [updateBookingById] when the dto names the room the booking
    already has. *)
Lemma updateBookingById_same_room_keeps_ledger capacity bid uid dto s :
  (∀ b, bookings s !! bid = Some b → roomId b = dto_roomId dto) →
  ledger_consistent capacity s →
  ledger_consistent capacity (updateBookingById bid uid dto s).2.
Proof.
  intros Hsame Hs.
  destruct (bookings s !! bid) as [b|] eqn:Hb;
    [|by rewrite updateBookingById_no_booking].
  destruct (rooms s !! dto_roomId dto) as [r|] eqn:Hr;
    [|by rewrite (updateBookingById_no_room s bid uid dto b)].
  rewrite (updateBookingById_done s bid uid dto b r) by done.
  intros rid r'. simpl.
  rewrite (booked_insert_Some _ bid b) by done. rewrite booked_set_rooms.
  unfold reserves. simpl. rewrite (Hsame b eq_refl), lookup_insert.
  repeat case_decide; try congruence; intros Hl.
  - injection Hl as <-. simpl. subst rid. specialize (Hs _ _ Hr). lia.
  - specialize (Hs _ _ Hl). lia.
Qed.

(** [deleteBookingById] drops the booking's rooms from the sum and leaves
    the counter alone. *)
Lemma deleteBookingById_ledger id s b r :
  bookings s !! id = Some b → rooms s !! roomId b = Some r →
  ledger (deleteBookingById id s).2 (roomId b)
    = Some (numberAvailable r + booked s (roomId b) - numberOfRooms b).
Proof.
  intros Hb Hr. rewrite (deleteBookingById_done s id b) by done.
  unfold ledger. simpl. rewrite Hr. simpl. f_equal.
  rewrite (booked_delete s id b (roomId b) Hb). unfold reserves.
  rewrite decide_True by done. lia.
Qed.

Lemma a_store_ledger available capacity bs :
  available + booked (a_store available bs) "r1" = capacity →
  ledger_consistent (fun _ => capacity) (a_store available bs).
Proof.
  intros H rid r Hl. cbn [rooms a_store] in Hl.
  apply lookup_singleton_Some in Hl as [<- <-]. exact H.
Qed.

(** C1, at the scenario where the claim fails. Room [r1] has capacity 4: 1
    available and a booking of 3. The equation holds; after
    [deleteBookingById] succeeds it does not ([1 + 0] is not 4), and the
    same after [deleteAllBookings]. *)
Theorem delete_breaks_ledger_equation :
  let s := a_store 1 {["b1" := a_booking 3]} in
  let capacity := fun _ : string => 4 in
  ledger_consistent capacity s
  ∧ (deleteBookingById "b1" s).1 = requestSuccessful None "Booking deleted successfully"
  ∧ ledger (deleteBookingById "b1" s).2 "r1" = Some 1
  ∧ ¬ ledger_consistent capacity (deleteBookingById "b1" s).2
  ∧ (deleteAllBookings "u1" s).1 = requestSuccessful None "Bookings deleted successfully"
  ∧ ledger (deleteAllBookings "u1" s).2 "r1" = Some 1
  ∧ ¬ ledger_consistent capacity (deleteAllBookings "u1" s).2.
Proof.
  intros s capacity.
  split_and!; try reflexivity.
  - by apply a_store_ledger.
  - intros H. by specialize (H "r1" (a_room 1) eq_refl).
  - intros H. by specialize (H "r1" (a_room 1) eq_refl).
Qed.

(** ** numberAvailable below zero *)

Lemma createBooking_keeps_nonneg uid dto s :
  available_nonneg s → available_nonneg (createBooking uid dto s).2.
Proof.
  intros Hs.
  destruct (rooms s !! dto_roomId dto) as [r|] eqn:Hr;
    [|by rewrite createBooking_no_room].
  destruct (decide (uid ∈ users s)) as [Hu|Hu];
    [|by rewrite (createBooking_no_user s uid dto r)].
  destruct (Z.lt_ge_cases (dto_numberOfRooms dto) (numberAvailable r));
    [|by rewrite (createBooking_rejected s uid dto r)].
  rewrite (createBooking_admitted s uid dto r) by done.
  intros rid r'. simpl. rewrite lookup_insert.
  case_decide; intros Hl.
  - injection Hl as <-. simpl. lia.
  - by apply (Hs rid).
Qed.

Lemma deleteBookingById_keeps_nonneg id s :
  available_nonneg s → available_nonneg (deleteBookingById id s).2.
Proof. unfold available_nonneg. by rewrite deleteBookingById_rooms. Qed.

Lemma deleteAllBookings_keeps_nonneg uid s :
  available_nonneg s → available_nonneg (deleteAllBookings uid s).2.
Proof. unfold available_nonneg. by rewrite deleteAllBookings_rooms. Qed.

(** C8, at the scenario where the claim fails. Room [r1] has 3 available and
    a booking of 2; every counter of the store is non-negative. Updating the
    booking to 10 rooms succeeds and leaves [numberAvailable = 3 + 2 - 10 =
    -5]: [updateBookingById] makes no admission check. *)
Theorem updateBookingById_drives_available_negative :
  let s := a_store 3 {["b1" := a_booking 2]} in
  let dto := a_dto "r1" (isoDate 2024 1 1) (isoDate 2024 1 4) 10 in
  available_nonneg s
  ∧ (updateBookingById "b1" "u1" dto s).1
      = requestSuccessful None "Booking updated successfully"
  ∧ numberAvailable <$> rooms (updateBookingById "b1" "u1" dto s).2 !! "r1" = Some (-5)
  ∧ ¬ available_nonneg (updateBookingById "b1" "u1" dto s).2.
Proof.
  intros s dto. split_and!; try reflexivity.
  - intros rid r Hl. cbn [rooms a_store s] in Hl.
    apply lookup_singleton_Some in Hl as [<- <-]. simpl. lia.
  - intros H. specialize (H "r1" (a_room (-5)) eq_refl). simpl in H. lia.
Qed.

(** ** getAllBookingsByUser *)

Lemma elem_of_bookings_of s uid k b :
  (k, b) ∈ bookings_of s uid ↔ bookings s !! k = Some b ∧ userId b = uid.
Proof.
  unfold bookings_of. rewrite list_elem_of_filter, elem_of_map_to_list. simpl. tauto.
Qed.

Lemma bookings_of_nil s uid :
  bookings_of s uid = [] ↔ ∀ k b, bookings s !! k = Some b → userId b ≠ uid.
Proof.
  split.
  - intros He k b Hb Hu.
    assert (Hin : (k, b) ∈ bookings_of s uid) by by apply elem_of_bookings_of.
    rewrite He in Hin. by apply not_elem_of_nil in Hin.
  - intros Hno. destruct (bookings_of s uid) as [|[k b] l] eqn:He; [done|].
    assert (Hin : (k, b) ∈ bookings_of s uid) by (rewrite He; left).
    apply elem_of_bookings_of in Hin as [Hb Hu]. by destruct (Hno k b Hb).
Qed.

Lemma include_hotel_room_view s kb o :
  prisma.include_hotel_room s kb = Some o → public_view s kb (strip_linkage o).
Proof.
  unfold prisma.include_hotel_room.
  destruct (hotels s !! hotelId kb.2) as [h|] eqn:Hh; [|done].
  destruct (rooms s !! roomId kb.2) as [r|] eqn:Hr; [|done].
  intros [= <-]. unfold public_view. rewrite Hh, Hr.
  split_and!; reflexivity.
Qed.

Lemma include_hotel_room_resolves s uid :
  references_resolve s → is_Some (mapM (prisma.include_hotel_room s) (bookings_of s uid)).
Proof.
  intros Hres. apply mapM_is_Some, Forall_forall. intros [k b] Hin.
  apply elem_of_bookings_of in Hin as [Hb _].
  destruct (Hres k b Hb) as [[h Hh] [r Hr]].
  unfold prisma.include_hotel_room. simpl. rewrite Hh, Hr. by eexists.
Qed.

Lemma getAllBookingsByUser_no_user uid s :
  uid ∉ users s → getAllBookingsByUser uid s = (clientError "User does not exist", s).
Proof. intros Hu. run. by rewrite decide_False. Qed.

Lemma getAllBookingsByUser_none uid s :
  uid ∈ users s → bookings_of s uid = [] →
  getAllBookingsByUser uid s = (clientError "You don't have any bookings", s).
Proof. intros Hu He. run. rewrite decide_True by done. simpl. by rewrite He. Qed.

Lemma getAllBookingsByUser_some uid s l :
  uid ∈ users s → bookings_of s uid ≠ [] →
  mapM (prisma.include_hotel_room s) (bookings_of s uid) = Some l →
  getAllBookingsByUser uid s =
    (requestSuccessful (Some (PList (strip_linkage <$> l))) "Bookings retrieved successfully", s).
Proof.
  intros Hu Hne HM. run. rewrite decide_True by done. simpl. rewrite HM.
  apply length_mapM in HM. destruct l; [|done].
  by destruct (bookings_of s uid).
Qed.

Lemma bookings_of_NoDup s uid : NoDup (bookings_of s uid).
Proof. apply NoDup_filter, NoDup_map_to_list. Qed.

(** C9. [getAllBookingsByUser] answers 'User does not exist' when the user
    is absent; answers the client error 'You don't have any bookings', not a
    success with an empty list, when the user exists and no booking row has
    their [userId]; and otherwise (the bookings' references resolving)
    succeeds with one object for each booking row whose [userId] is the
    user's, and for no other row, in which [hotelId], [roomId], [createdAt],
    [updatedAt] and [userId] are removed and the joined [hotel] and [room]
    rows and the remaining columns are present. *)
Theorem getAllBookingsByUser_answers uid s :
  ((uid ∉ users s) →
     (getAllBookingsByUser uid s).1 = clientError "User does not exist")
  ∧ (uid ∈ users s → (∀ k b, bookings s !! k = Some b → userId b ≠ uid) →
     (getAllBookingsByUser uid s).1 = clientError "You don't have any bookings")
  ∧ (uid ∈ users s → (∃ k b, bookings s !! k = Some b ∧ userId b = uid) →
     references_resolve s →
     ∃ rows payload,
       (getAllBookingsByUser uid s).1
         = requestSuccessful (Some (PList payload)) "Bookings retrieved successfully"
       ∧ NoDup rows
       ∧ (∀ k b, (k, b) ∈ rows ↔ bookings s !! k = Some b ∧ userId b = uid)
       ∧ Forall2 (public_view s) rows payload).
Proof.
  split_and!.
  - intros Hu. by rewrite getAllBookingsByUser_no_user.
  - intros Hu Hno. rewrite getAllBookingsByUser_none; [done..|].
    by apply bookings_of_nil.
  - intros Hu (k & b & Hb & Hk) Hres.
    destruct (include_hotel_room_resolves s uid Hres) as [l HM].
    exists (bookings_of s uid), (strip_linkage <$> l).
    rewrite (getAllBookingsByUser_some uid s l); [|done| |done].
    + split_and!; [done|apply bookings_of_NoDup|apply elem_of_bookings_of|].
      apply Forall2_fmap_r. apply mapM_Some in HM.
      eapply Forall2_impl; [exact HM|]. apply include_hotel_room_view.
    + intros He. by apply (proj1 (bookings_of_nil s uid) He k b Hb).
Qed.

(** Two users, a booking each. A caller unknown to the store is told so; a
    user without bookings is told so although the other user has one; a user
    with a booking gets theirs and not the other's. *)
Lemma getAllBookingsByUser_answers_witness :
  (getAllBookingsByUser "u3" (two_users_store {["b2" := their_booking]})).1
    = clientError "User does not exist"
  ∧ (getAllBookingsByUser "u1" (two_users_store {["b2" := their_booking]})).1
    = clientError "You don't have any bookings"
  ∧ ∃ payload,
      (getAllBookingsByUser "u1"
         (two_users_store {["b1" := a_booking 1; "b2" := their_booking]})).1
        = requestSuccessful (Some (PList payload)) "Bookings retrieved successfully"
      ∧ Forall2 (public_view
                   (two_users_store {["b1" := a_booking 1; "b2" := their_booking]}))
          [("b1", a_booking 1)] payload.
Proof.
  split_and!.
  - apply (getAllBookingsByUser_answers "u3" (two_users_store {["b2" := their_booking]})).
    by vm_compute.
  - apply (getAllBookingsByUser_answers "u1" (two_users_store {["b2" := their_booking]}));
      [by vm_compute|].
    intros k b Hb. cbn [bookings two_users_store] in Hb.
    by apply lookup_singleton_Some in Hb as [<- <-].
  - destruct (getAllBookingsByUser_answers "u1"
                (two_users_store {["b1" := a_booking 1; "b2" := their_booking]}))
      as (_ & _ & H).
    destruct H as (rows & payload & Hok & Hnd & Hin & Hview).
    + by vm_compute.
    + exists "b1", (a_booking 1). split; reflexivity.
    + intros k b Hb. cbn [bookings two_users_store] in Hb.
      apply lookup_insert_Some in Hb as [[<- <-]|[_ Hb]];
        [|apply lookup_singleton_Some in Hb as [<- <-]];
        split; eexists; reflexivity.
    + exists payload. split; [exact Hok|].
      assert (Hrows : rows = [("b1", a_booking 1)]); [|by rewrite <- Hrows].
      apply Permutation_singleton_r, NoDup_Permutation;
        [done|apply NoDup_singleton|].
      intros [k b]. rewrite Hin, list_elem_of_singleton.
      cbn [bookings two_users_store]. split.
      * intros [Hb Hk].
        apply lookup_insert_Some in Hb as [[<- <-]|[_ Hb]]; [done|].
        by apply lookup_singleton_Some in Hb as [<- <-].
      * intros [= -> ->]. split; reflexivity.
Defined.

(** ** The cost calculator: bounds, symmetry and sub-day drift *)

(** X1. The number of nights is never negative, does not depend on the
    order of the two dates, and is 0 exactly when the dates are less than
    twelve hours apart. *)
Theorem getNumberOfNights_sign_order_zero a b :
  0 ≤ getNumberOfNights a b
  ∧ getNumberOfNights a b = getNumberOfNights b a
  ∧ (getNumberOfNights a b = 0 ↔ Z.abs (a - b) < 43200000).
Proof.
  split_and!.
  - rewrite getNumberOfNights_eq. apply Z.div_pos; lia.
  - apply getNumberOfNights_sym.
  - rewrite getNumberOfNights_eq, Z.div_small_iff by lia. lia.
Qed.

(** X2. Two dates that are [k] whole days apart, give or take a drift of less
    than twelve hours either way, count [|k|] nights; for valid dates at
    most [2^53] milliseconds apart, where the exact quotient is the one the
    code rounds. *)
Theorem getNumberOfNights_drift a k d :
  valid_time a → valid_time (a + 86400000 * k + d) →
  -43200000 < d < 43200000 →
  Z.abs (86400000 * k + d) ≤ 2 ^ 53 →
  getNumberOfNights a (a + 86400000 * k + d) = Z.abs k.
Proof.
  intros _ _ Hd _. rewrite getNumberOfNights_eq. symmetry.
  apply (Z.div_unique _ _ _
           (2 * Z.abs (a - (a + 86400000 * k + d)) + 86400000 - 172800000 * Z.abs k));
    lia.
Qed.

(** Three days and one hour (a clock change) are three nights. *)
Lemma getNumberOfNights_drift_witness :
  getNumberOfNights (isoDate 2024 1 1) (isoDate 2024 1 1 + 86400000 * 3 + 3600000) = 3.
Proof.
  apply (getNumberOfNights_drift (isoDate 2024 1 1) 3 3600000);
    [by vm_compute | by vm_compute | lia | by vm_compute].
Defined.

(** ** getBookingById *)

(** X3. [getBookingById] answers 'Booking does not exist' for an id that no
    row has; for the id of a row it succeeds with one object in which
    [createdAt], [updatedAt] and [userId] are removed while [id], [roomId],
    [hotelId], the dates, [numberOfRooms] and [cost] are the row's. The
    store is the same afterwards in both cases. *)
Theorem getBookingById_answers id s :
  (bookings s !! id = None →
     getBookingById id s = (clientError "Booking does not exist", s))
  ∧ (∀ b, bookings s !! id = Some b →
     ∃ o, getBookingById id s
            = (requestSuccessful (Some (PObject o)) "Booking retrieved successfully", s)
       ∧ o !! "createdAt" = None ∧ o !! "updatedAt" = None ∧ o !! "userId" = None
       ∧ o !! "id" = Some (VString id)
       ∧ o !! "roomId" = Some (VString (roomId b))
       ∧ o !! "hotelId" = Some (VString (hotelId b))
       ∧ o !! "checkInDate" = Some (VDate (checkInDate b))
       ∧ o !! "checkOutDate" = Some (VDate (checkOutDate b))
       ∧ o !! "numberOfRooms" = Some (VNumber (numberOfRooms b))
       ∧ o !! "cost" = Some (VNumber (cost b))).
Proof.
  split.
  - intros Hb. run. by rewrite Hb.
  - intros b Hb. eexists. split; [run; by rewrite Hb|].
    split_and!; reflexivity.
Qed.

Lemma getBookingById_answers_witness :
  getBookingById "b2" (a_store 2 {["b1" := a_booking 3]})
    = (clientError "Booking does not exist", a_store 2 {["b1" := a_booking 3]})
  ∧ ∃ o, (getBookingById "b1" (a_store 2 {["b1" := a_booking 3]})).1
           = requestSuccessful (Some (PObject o)) "Booking retrieved successfully"
      ∧ o !! "userId" = None ∧ o !! "numberOfRooms" = Some (VNumber 3).
Proof.
  split.
  - by apply (getBookingById_answers "b2" (a_store 2 {["b1" := a_booking 3]})).
  - destruct (getBookingById_answers "b1" (a_store 2 {["b1" := a_booking 3]})) as [_ H].
    destruct (H (a_booking 3) eq_refl) as (o & Hok & _ & _ & Hu & _ & _ & _ & _ & _ & Hn & _).
    exists o. rewrite Hok. split_and!; [reflexivity | exact Hu | exact Hn].
Defined.

Lemma getBookingById_store id s : (getBookingById id s).2 = s.
Proof. run. by destruct (bookings s !! id). Qed.

Lemma getAllBookingsByUser_store uid s : (getAllBookingsByUser uid s).2 = s.
Proof.
  run. destruct (decide (uid ∈ users s)); simpl; [|done].
  destruct (mapM _ _) as [l|]; [|done]. simpl.
  by destruct (0 <? length l)%nat.
Qed.

(** X4. The two reading methods never write: whatever [getBookingById] and
    [getAllBookingsByUser] answer, the server error included, the store
    afterwards is the store before. *)
Theorem reads_leave_store id uid s :
  (getBookingById id s).2 = s ∧ (getAllBookingsByUser uid s).2 = s.
Proof. split; [apply getBookingById_store | apply getAllBookingsByUser_store]. Qed.

(** ** deleteBookingById *)

(** X5. [deleteBookingById] answers 'Booking does not exist' and changes
    nothing for an id that no row has; for the id of a row it succeeds and
    removes that row and no other, and leaves the users, the hotels and the
    rooms (their [numberAvailable] included) as they were. *)
Theorem deleteBookingById_effect id s :
  (bookings s !! id = None →
     deleteBookingById id s = (clientError "Booking does not exist", s))
  ∧ (is_Some (bookings s !! id) →
     let s' := (deleteBookingById id s).2 in
     (deleteBookingById id s).1 = requestSuccessful None "Booking deleted successfully"
     ∧ bookings s' !! id = None
     ∧ (∀ k, k ≠ id → bookings s' !! k = bookings s !! k)
     ∧ rooms s' = rooms s ∧ users s' = users s ∧ hotels s' = hotels s).
Proof.
  split.
  - apply deleteBookingById_no_booking.
  - intros [b Hb]. rewrite (deleteBookingById_done s id b Hb). simpl.
    split_and!; try done.
    + apply lookup_delete_eq.
    + intros k Hk. by apply lookup_delete_ne.
Qed.

Lemma deleteBookingById_effect_witness :
  let s := a_store 1 {["b1" := a_booking 3]} in
  deleteBookingById "b2" s = (clientError "Booking does not exist", s)
  ∧ (deleteBookingById "b1" s).1 = requestSuccessful None "Booking deleted successfully"
  ∧ bookings (deleteBookingById "b1" s).2 !! "b1" = None.
Proof.
  intros s. split.
  - by apply (deleteBookingById_effect "b2" s).
  - destruct (deleteBookingById_effect "b1" s) as [_ H].
    destruct H as (Hok & Hgone & _); [by eexists|].
    split; [exact Hok | exact Hgone].
Defined.

(** X6. Once a booking is deleted its id is dead: deleting it again, reading
    it and updating it all answer 'Booking does not exist'. *)
Theorem deleted_booking_is_gone id s :
  is_Some (bookings s !! id) →
  let s' := (deleteBookingById id s).2 in
  (deleteBookingById id s').1 = clientError "Booking does not exist"
  ∧ (getBookingById id s').1 = clientError "Booking does not exist"
  ∧ ∀ uid dto, (updateBookingById id uid dto s').1 = clientError "Booking does not exist".
Proof.
  intros [b Hb]. rewrite (deleteBookingById_done s id b Hb). simpl.
  assert (Hgone : bookings (set_bookings (delete id) s) !! id = None)
    by apply lookup_delete_eq.
  split_and!.
  - by rewrite deleteBookingById_no_booking.
  - run. by rewrite Hgone.
  - intros uid dto. by rewrite updateBookingById_no_booking.
Qed.

Lemma deleted_booking_is_gone_witness :
  let s' := (deleteBookingById "b1" (a_store 1 {["b1" := a_booking 3]})).2 in
  (deleteBookingById "b1" s').1 = clientError "Booking does not exist".
Proof.
  apply (deleted_booking_is_gone "b1" (a_store 1 {["b1" := a_booking 3]})).
  by eexists.
Defined.

(** ** deleteAllBookings *)

(** X7. [deleteAllBookings] answers 'User does not exist' for an absent user
    and 'You don't have any bookings' for a user without bookings, changing
    nothing; otherwise it succeeds and the rows left are exactly the rows of
    the other users, and no room is written. *)
Theorem deleteAllBookings_effect uid s :
  ((uid ∉ users s) →
     deleteAllBookings uid s = (clientError "User does not exist", s))
  ∧ (uid ∈ users s → (∀ k b, bookings s !! k = Some b → userId b ≠ uid) →
     deleteAllBookings uid s = (clientError "You don't have any bookings", s))
  ∧ (uid ∈ users s → (∃ k b, bookings s !! k = Some b ∧ userId b = uid) →
     let s' := (deleteAllBookings uid s).2 in
     (deleteAllBookings uid s).1 = requestSuccessful None "Bookings deleted successfully"
     ∧ (∀ k b, bookings s' !! k = Some b ↔ bookings s !! k = Some b ∧ userId b ≠ uid)
     ∧ rooms s' = rooms s).
Proof.
  split_and!.
  - apply deleteAllBookings_no_user.
  - intros Hu Hno. apply deleteAllBookings_none; [done|]. by apply bookings_of_nil.
  - intros Hu (k & b & Hb & Hk).
    rewrite deleteAllBookings_done; [|done|].
    + simpl. split_and!; [done| |done].
      intros k' b'. by rewrite map_lookup_filter_Some.
    + intros He. by apply (proj1 (bookings_of_nil s uid) He k b Hb).
Qed.

Lemma deleteAllBookings_effect_witness :
  let s := a_store 1 {["b1" := a_booking 3]} in
  deleteAllBookings "u2" s = (clientError "User does not exist", s)
  ∧ deleteAllBookings "u1" (a_store 1 ∅)
      = (clientError "You don't have any bookings", a_store 1 ∅)
  ∧ (deleteAllBookings "u1" s).1 = requestSuccessful None "Bookings deleted successfully".
Proof.
  intros s. split_and!.
  - apply (deleteAllBookings_effect "u2" s). by vm_compute.
  - apply (deleteAllBookings_effect "u1" (a_store 1 ∅)); [by vm_compute|].
    intros k b Hb. cbn [bookings a_store] in Hb. by rewrite lookup_empty in Hb.
  - apply (deleteAllBookings_effect "u1" s); [by vm_compute|].
    exists "b1", (a_booking 3). split; reflexivity.
Defined.



(** ** updateBookingById: errors, the two ledgers, repetition *)



Lemma updateBookingById_booked bid uid dto s b r rid :
  bookings s !! bid = Some b → rooms s !! dto_roomId dto = Some r →
  booked (updateBookingById bid uid dto s).2 rid
    = (if decide (dto_roomId dto = rid) then dto_numberOfRooms dto else 0)
      - reserves rid b + booked s rid.
Proof.
  intros Hb Hr. rewrite (updateBookingById_done s bid uid dto b r) by done.
  cbn [snd]. rewrite (booked_insert_Some _ bid b) by done.
  by rewrite booked_set_rooms.
Qed.

(** X10. A successful [updateBookingById] settles the whole change on the
    room of the dto. When that is the booking's own room, every room's
    ledger ([numberAvailable] plus rooms booked) is what it was. When the
    booking moves to another room, the old room's row is not written, so its
    ledger loses the booking's old [numberOfRooms], and the new room's
    ledger gains them. *)
Theorem updateBookingById_moves_reservation bid uid dto s b r :
  bookings s !! bid = Some b → rooms s !! dto_roomId dto = Some r →
  let s' := (updateBookingById bid uid dto s).2 in
  (roomId b = dto_roomId dto → ∀ rid, ledger s' rid = ledger s rid)
  ∧ (roomId b ≠ dto_roomId dto →
       rooms s' !! roomId b = rooms s !! roomId b
       ∧ ledger s' (roomId b) = (fun z => z - numberOfRooms b) <$> ledger s (roomId b)
       ∧ ledger s' (dto_roomId dto)
         = (fun z => z + numberOfRooms b) <$> ledger s (dto_roomId dto)).
Proof.
  intros Hb Hr s'.
  assert (Hrooms : rooms s' =
            <[dto_roomId dto := set_numberAvailable r
                (numberAvailable r + numberOfRooms b - dto_numberOfRooms dto)]> (rooms s)).
  { unfold s'. by rewrite (updateBookingById_done s bid uid dto b r). }
  assert (Hbooked := updateBookingById_booked bid uid dto s b r).
  fold s' in Hbooked. specialize (Hbooked). unfold reserves in Hbooked.
  split.
  - intros Hsame rid. unfold ledger. rewrite Hrooms, lookup_insert, Hbooked by done.
    rewrite Hsame. case_decide as Hrid.
    + subst rid. rewrite Hr. simpl. f_equal. lia.
    + destruct (rooms s !! rid); simpl; f_equal; lia.
  - intros Hmove. split_and!.
    + rewrite Hrooms. by apply lookup_insert_ne.
    + unfold ledger. rewrite Hrooms, lookup_insert_ne, Hbooked by done.
      rewrite decide_False, decide_True by done.
      destruct (rooms s !! roomId b); simpl; f_equal; lia.
    + unfold ledger. rewrite Hrooms, lookup_insert_eq, Hbooked by done.
      rewrite decide_True, decide_False, Hr by done. simpl. f_equal. lia.
Qed.

(** A booking of 2 rooms moves from [r1] to [r2]: [r1] keeps 3 available with
    nothing booked, [r2] shows 4 available and 2 booked where it had 4. *)
Lemma updateBookingById_moves_reservation_witness :
  let s := set_rooms (insert "r2" (a_room 4)) (a_store 3 {["b1" := a_booking 2]}) in
  let s' := (updateBookingById "b1" "u1"
               (a_dto "r2" (isoDate 2024 1 1) (isoDate 2024 1 4) 2) s).2 in
  ledger s "r1" = Some 5 ∧ ledger s' "r1" = Some 3
  ∧ ledger s "r2" = Some 4 ∧ ledger s' "r2" = Some 6.
Proof.
  intros s s'.
  destruct (updateBookingById_moves_reservation "b1" "u1"
              (a_dto "r2" (isoDate 2024 1 1) (isoDate 2024 1 4) 2) s (a_booking 2) (a_room 4))
    as [_ H]; [reflexivity..|].
  destruct H as (_ & H1 & H2); [by vm_compute|].
  fold s' in H1, H2. cbn [roomId a_booking dto_roomId a_dto] in H1, H2.
  rewrite H1, H2. split_and!; reflexivity.
Defined.

(** X11. Repeating an [updateBookingById] call, at whatever later reading of
    the store's clock, gives the first call's answer and changes no data:
    the room table is what the first call left, and so is every column of
    every booking other than [updatedAt]. In particular the room's counter
    does not drift when a request is sent twice. *)
Theorem updateBookingById_repeat_keeps_data bid uid dto s t :
  let s1 := (updateBookingById bid uid dto s).2 in
  let again := updateBookingById bid uid dto (set_clock t s1) in
  again.1 = (updateBookingById bid uid dto s).1
  ∧ rooms again.2 = rooms s1
  ∧ ∀ k, booking_data <$> bookings again.2 !! k = booking_data <$> bookings s1 !! k.
Proof.
  destruct (bookings s !! bid) as [b|] eqn:Hb.
  2: { rewrite updateBookingById_no_booking by done. simpl.
       by rewrite updateBookingById_no_booking. }
  destruct (rooms s !! dto_roomId dto) as [r|] eqn:Hr.
  2: { rewrite (updateBookingById_no_room s bid uid dto b) by done. simpl.
       by rewrite (updateBookingById_no_room _ bid uid dto b). }
  rewrite (updateBookingById_done s bid uid dto b r) by done. cbn [fst snd].
  erewrite updateBookingById_done;
    [|simpl; apply lookup_insert_eq|simpl; apply lookup_insert_eq].
  cbn [fst snd]. split; [done|]. split.
  - simpl. rewrite insert_insert_eq. f_equal.
    unfold set_numberAvailable. simpl. f_equal. lia.
  - intros k. simpl. rewrite insert_insert_eq, !lookup_insert.
    by case_decide.
Qed.

(** X12. [updateBookingById] never adds or removes a booking, and never
    changes the owner, the [hotelId] or the creation time of one: a booking
    moved to a room of another hotel keeps the [hotelId] it was created
    with. *)
Theorem updateBookingById_keeps_owner_and_hotel bid uid dto s :
  let s' := (updateBookingById bid uid dto s).2 in
  dom (bookings s') = dom (bookings s)
  ∧ ∀ k, booking_fixed <$> bookings s' !! k = booking_fixed <$> bookings s !! k.
Proof.
  destruct (bookings s !! bid) as [b|] eqn:Hb;
    [|by rewrite updateBookingById_no_booking].
  destruct (rooms s !! dto_roomId dto) as [r|] eqn:Hr;
    [|by rewrite (updateBookingById_no_room s bid uid dto b)].
  rewrite (updateBookingById_done s bid uid dto b r) by done. simpl. split.
  - by apply dom_insert_lookup_L.
  - intros k. rewrite lookup_insert. case_decide; [subst k; by rewrite Hb|done].
Qed.

(** ** createBooking: what a success leaves behind *)

(** X13. A successful [createBooking] never takes a room's last unit: the
    room of the booking has at least one room available afterwards. *)
Theorem createBooking_never_empties_room uid dto s :
  (createBooking uid dto s).1 = requestSuccessful None "Booking created successfully" →
  ∃ r', rooms (createBooking uid dto s).2 !! dto_roomId dto = Some r'
        ∧ 0 < numberAvailable r'.
Proof.
  intros Hok.
  destruct (rooms s !! dto_roomId dto) as [r|] eqn:Hr;
    [|by rewrite createBooking_no_room in Hok].
  destruct (decide (uid ∈ users s)) as [Hu|Hu];
    [|by rewrite (createBooking_no_user s uid dto r) in Hok].
  destruct (Z.lt_ge_cases (dto_numberOfRooms dto) (numberAvailable r));
    [|by rewrite (createBooking_rejected s uid dto r) in Hok].
  rewrite (createBooking_admitted s uid dto r) by done. simpl.
  eexists. split; [apply lookup_insert_eq|]. simpl. lia.
Qed.

Lemma createBooking_never_empties_room_witness :
  ∃ r', rooms (createBooking "u1" (a_dto "r1" (isoDate 2024 1 1) (isoDate 2024 1 4) 4)
                 (a_store 5 ∅)).2 !! "r1" = Some r'
        ∧ 0 < numberAvailable r'.
Proof.
  apply (createBooking_never_empties_room "u1"
           (a_dto "r1" (isoDate 2024 1 1) (isoDate 2024 1 4) 4) (a_store 5 ∅)).
  reflexivity.
Defined.

Lemma getBookingById_found id s b :
  bookings s !! id = Some b →
  getBookingById id s
    = (requestSuccessful
         (Some (PObject (delete "userId" (delete "updatedAt" (delete "createdAt"
                           (booking_fields id b))))))
         "Booking retrieved successfully", s).
Proof. intros Hb. run. by rewrite Hb. Qed.

(** X14. What [createBooking] stored can be read back: after a success,
    [getBookingById] on the new id succeeds with the dto's room, dates and
    [numberOfRooms], the room's [hotelId] and the computed cost. *)
Theorem createBooking_then_getBookingById uid dto s :
  (createBooking uid dto s).1 = requestSuccessful None "Booking created successfully" →
  ∃ r o, rooms s !! dto_roomId dto = Some r
    ∧ (getBookingById (fresh (dom (bookings s))) (createBooking uid dto s).2).1
        = requestSuccessful (Some (PObject o)) "Booking retrieved successfully"
    ∧ o !! "id" = Some (VString (fresh (dom (bookings s))))
    ∧ o !! "roomId" = Some (VString (dto_roomId dto))
    ∧ o !! "hotelId" = Some (VString (room_hotelId r))
    ∧ o !! "checkInDate" = Some (VDate (dto_checkInDate dto))
    ∧ o !! "checkOutDate" = Some (VDate (dto_checkOutDate dto))
    ∧ o !! "numberOfRooms" = Some (VNumber (dto_numberOfRooms dto))
    ∧ o !! "cost" = Some (VNumber
         (getNumberOfNights (dto_checkInDate dto) (dto_checkOutDate dto)
          * dto_numberOfRooms dto * price r)).
Proof.
  intros Hok.
  destruct (rooms s !! dto_roomId dto) as [r|] eqn:Hr;
    [|by rewrite createBooking_no_room in Hok].
  destruct (decide (uid ∈ users s)) as [Hu|Hu];
    [|by rewrite (createBooking_no_user s uid dto r) in Hok].
  destruct (Z.lt_ge_cases (dto_numberOfRooms dto) (numberAvailable r));
    [|by rewrite (createBooking_rejected s uid dto r) in Hok].
  rewrite (createBooking_admitted s uid dto r) by done. cbn [snd].
  exists r. eexists. split; [done|].
  erewrite getBookingById_found by (simpl; apply lookup_insert_eq).
  split; [reflexivity|]. split_and!; reflexivity.
Qed.

Lemma createBooking_then_getBookingById_witness :
  ∃ o, (getBookingById "0"
          (createBooking "u1" (a_dto "r1" (isoDate 2024 1 1) (isoDate 2024 1 4) 2)
             (a_store 5 ∅)).2).1
         = requestSuccessful (Some (PObject o)) "Booking retrieved successfully"
       ∧ o !! "cost" = Some (VNumber 600).
Proof.
  destruct (createBooking_then_getBookingById "u1"
              (a_dto "r1" (isoDate 2024 1 1) (isoDate 2024 1 4) 2) (a_store 5 ∅))
    as (r & o & Hr & Hok & _ & _ & _ & _ & _ & _ & Hcost); [reflexivity|].
  exists o. split; [exact Hok|].
  vm_compute in Hr. injection Hr as <-. exact Hcost.
Defined.

(** X15. Cancelling does not undo booking: after a successful
    [createBooking], [deleteBookingById] on the new id succeeds and the
    booking table is again what it was before the booking, but the room
    stays debited by [numberOfRooms]. *)
Theorem createBooking_then_deleteBookingById uid dto s :
  (createBooking uid dto s).1 = requestSuccessful None "Booking created successfully" →
  let s1 := (createBooking uid dto s).2 in
  let s2 := (deleteBookingById (fresh (dom (bookings s))) s1).2 in
  (deleteBookingById (fresh (dom (bookings s))) s1).1
    = requestSuccessful None "Booking deleted successfully"
  ∧ bookings s2 = bookings s
  ∧ ∃ r, rooms s !! dto_roomId dto = Some r
       ∧ numberAvailable <$> rooms s2 !! dto_roomId dto
         = Some (numberAvailable r - dto_numberOfRooms dto).
Proof.
  intros Hok.
  destruct (rooms s !! dto_roomId dto) as [r|] eqn:Hr;
    [|by rewrite createBooking_no_room in Hok].
  destruct (decide (uid ∈ users s)) as [Hu|Hu];
    [|by rewrite (createBooking_no_user s uid dto r) in Hok].
  destruct (Z.lt_ge_cases (dto_numberOfRooms dto) (numberAvailable r));
    [|by rewrite (createBooking_rejected s uid dto r) in Hok].
  rewrite (createBooking_admitted s uid dto r) by done. cbn [snd].
  erewrite deleteBookingById_done by (simpl; apply lookup_insert_eq).
  simpl. split_and!; [done| |].
  - apply delete_insert_id, fresh_booking_id.
  - exists r. by rewrite lookup_insert_eq.
Qed.

(** Booking 4 of 5 rooms and cancelling at once leaves 1 available. *)
Lemma createBooking_then_deleteBookingById_witness :
  let s1 := (createBooking "u1" (a_dto "r1" (isoDate 2024 1 1) (isoDate 2024 1 4) 4)
               (a_store 5 ∅)).2 in
  let s2 := (deleteBookingById "0" s1).2 in
  bookings s2 = ∅ ∧ numberAvailable <$> rooms s2 !! "r1" = Some 1.
Proof.
  intros s1 s2.
  destruct (createBooking_then_deleteBookingById "u1"
              (a_dto "r1" (isoDate 2024 1 1) (isoDate 2024 1 4) 4) (a_store 5 ∅))
    as (_ & Hb & r & Hr & Ha); [reflexivity|].
  split; [exact Hb|].
  vm_compute in Hr. injection Hr as <-. exact Ha.
Defined.

(** X16. [createBooking] does not ask for a positive room count: on a room
    whose [numberAvailable] is not negative, a request for a negative
    [numberOfRooms] by an existing user is always accepted, raises the
    room's [numberAvailable], and (the price not being negative) is stored
    at a cost that is not positive. *)
Theorem createBooking_accepts_negative_count uid dto s r :
  uid ∈ users s → rooms s !! dto_roomId dto = Some r →
  0 ≤ numberAvailable r → dto_numberOfRooms dto < 0 →
  (createBooking uid dto s).1 = requestSuccessful None "Booking created successfully"
  ∧ (∃ r', rooms (createBooking uid dto s).2 !! dto_roomId dto = Some r'
           ∧ numberAvailable r < numberAvailable r')
  ∧ (∃ b, bookings (createBooking uid dto s).2 !! fresh (dom (bookings s)) = Some b
          ∧ (0 ≤ price r → cost b ≤ 0)).
Proof.
  intros Hu Hr Ha Hn.
  rewrite (createBooking_admitted s uid dto r) by (done || lia). simpl.
  split_and!; [done| |].
  - eexists. split; [apply lookup_insert_eq|]. simpl. lia.
  - eexists. split; [apply lookup_insert_eq|]. simpl. intros Hp.
    assert (0 ≤ getNumberOfNights (dto_checkInDate dto) (dto_checkOutDate dto))
      by (rewrite getNumberOfNights_eq; apply Z.div_pos; lia).
    nia.
Qed.

Lemma createBooking_accepts_negative_count_witness :
  (createBooking "u1" (a_dto "r1" (isoDate 2024 1 1) (isoDate 2024 1 4) (-2))
     (a_store 5 ∅)).1 = requestSuccessful None "Booking created successfully".
Proof.
  apply (createBooking_accepts_negative_count "u1"
           (a_dto "r1" (isoDate 2024 1 1) (isoDate 2024 1 4) (-2)) (a_store 5 ∅) (a_room 5)).
  - by vm_compute.
  - reflexivity.
  - simpl. lia.
  - simpl. lia.
Defined.

(** ** Calls made one after another *)

Lemma perform_all_cons op ops s :
  perform_all (op :: ops) s = perform_all ops (perform op s).2.
Proof. reflexivity. Qed.

(** X17. As long as no call is an [updateBookingById], no list of calls
    makes a room's [numberAvailable] negative. *)
Theorem no_update_keeps_available_nonneg ops s :
  forallb (fun op => negb (is_update op)) ops = true →
  available_nonneg s → available_nonneg (perform_all ops s).
Proof.
  revert s. induction ops as [|op ops IH]; intros s Hops Hs; [done|].
  simpl in Hops. apply andb_prop in Hops as [Hop Hops].
  rewrite perform_all_cons. apply IH; [done|].
  destruct op; simpl in *; try done.
  - by apply createBooking_keeps_nonneg.
  - by rewrite getBookingById_store.
  - by rewrite getAllBookingsByUser_store.
  - by apply deleteBookingById_keeps_nonneg.
  - by apply deleteAllBookings_keeps_nonneg.
Qed.

Lemma no_update_keeps_available_nonneg_witness :
  available_nonneg
    (perform_all [Create "u1" (a_dto "r1" (isoDate 2024 1 1) (isoDate 2024 1 4) 4);
                  GetAll "u1"; Delete "0"; DeleteAll "u1"] (a_store 5 ∅)).
Proof.
  apply no_update_keeps_available_nonneg; [reflexivity|].
  intros rid r Hl. cbn [rooms a_store] in Hl.
  apply lookup_singleton_Some in Hl as [<- <-]. simpl. lia.
Defined.

(** X18. Bookings and reads alone keep the books: under any list of
    [createBooking], [getBookingById] and [getAllBookingsByUser] calls, for
    every room [numberAvailable] plus the rooms booked stays equal to the
    room's capacity. *)
Theorem creates_and_reads_keep_ledger capacity ops s :
  forallb (fun op => negb (is_update op) && negb (is_delete op)) ops = true →
  ledger_consistent capacity s → ledger_consistent capacity (perform_all ops s).
Proof.
  revert s. induction ops as [|op ops IH]; intros s Hops Hs; [done|].
  simpl in Hops. apply andb_prop in Hops as [Hop Hops].
  rewrite perform_all_cons. apply IH; [done|].
  destruct op; simpl in *; try done.
  - by apply createBooking_keeps_ledger.
  - by rewrite getBookingById_store.
  - by rewrite getAllBookingsByUser_store.
Qed.

Lemma creates_and_reads_keep_ledger_witness :
  ledger_consistent (fun _ => 5)
    (perform_all [Create "u1" (a_dto "r1" (isoDate 2024 1 1) (isoDate 2024 1 4) 2);
                  GetOne "0";
                  Create "u1" (a_dto "r1" (isoDate 2024 1 4) (isoDate 2024 1 6) 1)]
       (a_store 5 ∅)).
Proof.
  apply creates_and_reads_keep_ledger; [reflexivity|].
  by apply a_store_ledger.
Defined.

Lemma perform_fixed op s :
  let s' := (perform op s).2 in
  users s' = users s ∧ hotels s' = hotels s ∧ clock s' = clock s
  ∧ ∀ rid, room_fixed <$> rooms s' !! rid = room_fixed <$> rooms s !! rid.
Proof.
  destruct op as [uid dto|bid uid dto|id|uid|id|uid]; simpl.
  - destruct (rooms s !! dto_roomId dto) as [r|] eqn:Hr;
      [|by rewrite createBooking_no_room].
    destruct (decide (uid ∈ users s)) as [Hu|Hu];
      [|by rewrite (createBooking_no_user s uid dto r)].
    destruct (Z.lt_ge_cases (dto_numberOfRooms dto) (numberAvailable r));
      [|by rewrite (createBooking_rejected s uid dto r)].
    rewrite (createBooking_admitted s uid dto r) by done. simpl.
    split_and!; try done. intros rid. rewrite lookup_insert.
    case_decide; [subst rid; by rewrite Hr|done].
  - destruct (bookings s !! bid) as [b|] eqn:Hb;
      [|by rewrite updateBookingById_no_booking].
    destruct (rooms s !! dto_roomId dto) as [r|] eqn:Hr;
      [|by rewrite (updateBookingById_no_room s bid uid dto b)].
    rewrite (updateBookingById_done s bid uid dto b r) by done. simpl.
    split_and!; try done. intros rid. rewrite lookup_insert.
    case_decide; [subst rid; by rewrite Hr|done].
  - by rewrite getBookingById_store.
  - by rewrite getAllBookingsByUser_store.
  - destruct (bookings s !! id) as [b|] eqn:Hb.
    + by rewrite (deleteBookingById_done s id b).
    + by rewrite deleteBookingById_no_booking.
  - destruct (decide (uid ∈ users s)); [|by rewrite deleteAllBookings_no_user].
    destruct (decide (bookings_of s uid = [])).
    + by rewrite deleteAllBookings_none.
    + by rewrite deleteAllBookings_done.
Qed.

(** X19. No list of calls, updates included, adds or removes a user, a hotel
    or a room, or changes a room's price or hotel: of the room table only
    [numberAvailable] is ever written. *)
Theorem calls_write_only_availability ops s :
  let s' := perform_all ops s in
  users s' = users s ∧ hotels s' = hotels s
  ∧ ∀ rid, room_fixed <$> rooms s' !! rid = room_fixed <$> rooms s !! rid.
Proof.
  revert s. induction ops as [|op ops IH]; intros s; [done|].
  cbv zeta. rewrite perform_all_cons.
  pose proof (IH (perform op s).2) as H1. cbv zeta in H1.
  destruct H1 as (Hu & Hh & Hr).
  pose proof (perform_fixed op s) as H2. cbv zeta in H2.
  destruct H2 as (Hu' & Hh' & _ & Hr').
  split_and!; [congruence..|]. intros rid. by rewrite Hr, Hr'.
Qed.

(** X20. A client error never comes with a write: whichever of the six
    methods answers with a client error has left the store exactly as it
    was. (Every client error is answered on reads alone, before the method's
    first write.) *)
Theorem client_error_writes_nothing op s message :
  (perform op s).1 = clientError message → (perform op s).2 = s.
Proof.
  destruct op as [uid dto|bid uid dto|id|uid|id|uid]; simpl.
  - destruct (rooms s !! dto_roomId dto) as [r|] eqn:Hr;
      [|by rewrite createBooking_no_room].
    destruct (decide (uid ∈ users s)) as [Hu|Hu];
      [|by rewrite (createBooking_no_user s uid dto r)].
    destruct (Z.lt_ge_cases (dto_numberOfRooms dto) (numberAvailable r));
      [|by rewrite (createBooking_rejected s uid dto r)].
    by rewrite (createBooking_admitted s uid dto r).
  - destruct (bookings s !! bid) as [b|] eqn:Hb;
      [|by rewrite updateBookingById_no_booking].
    destruct (rooms s !! dto_roomId dto) as [r|] eqn:Hr;
      [|by rewrite (updateBookingById_no_room s bid uid dto b)].
    by rewrite (updateBookingById_done s bid uid dto b r).
  - intros _. apply getBookingById_store.
  - intros _. apply getAllBookingsByUser_store.
  - destruct (bookings s !! id) as [b|] eqn:Hb.
    + by rewrite (deleteBookingById_done s id b).
    + by rewrite deleteBookingById_no_booking.
  - destruct (decide (uid ∈ users s)); [|by rewrite deleteAllBookings_no_user].
    destruct (decide (bookings_of s uid = [])).
    + by rewrite deleteAllBookings_none.
    + by rewrite deleteAllBookings_done.
Qed.

Lemma client_error_writes_nothing_witness :
  (perform (Create "u1" (a_dto "r1" (isoDate 2024 1 1) (isoDate 2024 1 4) 5))
     (a_store 5 ∅)).2 = a_store 5 ∅.
Proof.
  apply (client_error_writes_nothing _ _
           "The number of available rooms is less than your desired booking").
  reflexivity.
Defined.
